(** * HoaLibrary (2D): harmonic indexing, channel layouts and the decoders

    A shallow embedding of [Dev/Decoder.h] (namespace [Hoa2D]).  The header
    holds the class declarations and the inline accessors; the constructors
    and the setters are only declared there.  Every class becomes a record in
    a module of its name, every inline member function a definition of the
    same name.  Members whose bodies are not in the header are modelled from
    the specification and say so in their documentation.

    Conventions.
    - [unsigned int], [int] and [long] values are integers of [Z]; the
      conversions between them are written out ([to_uint], [to_int],
      [to_long]: 32-bit and 64-bit two's complement, LP64).
    - [double] values are real numbers: rounding is not modelled.
    - A failed [assert] and the error kinds of the specification are values
      of [error]; a member function that can fail returns a [result]. *)

From Stdlib Require Import ZArith List Bool Lia Reals Lra String DecimalString.
From Stdlib Require DecimalZ DecimalPos.
From stdpp Require Import base option list.

Open Scope Z_scope.

(** ** Errors *)

Inductive error : Type :=
| ConfigurationError
| RangeError.

Inductive result (A : Type) : Type :=
| Ok (a : A)
| Err (e : error).

Arguments Ok {A} a.
Arguments Err {A} e.

#[global] Instance result_ret : MRet result := fun A a => Ok a.

#[global] Instance result_bind : MBind result := fun A B f r =>
  match r with
  | Ok a => f a
  | Err e => Err e
  end.

(** An array read [a[i]]; the callers check the index first. *)
Definition array_get {A : Type} (a : list A) (i : Z) : result A :=
  match a !! Z.to_nat i with
  | Some x => Ok x
  | None => Err RangeError
  end.

(** ** Machine integers *)

Module CInt.

Definition UINT_MAX : Z := 4294967295.
Definition INT_MAX : Z := 2147483647.
Definition INT_MIN : Z := -2147483648.
Definition LONG_MAX : Z := 9223372036854775807.
Definition LONG_MIN : Z := -9223372036854775808.

(** Conversion to [unsigned int]. *)
Definition to_uint (z : Z) : Z := z mod 4294967296.

(** Conversion to [int], and the result of an [int] operation. *)
Definition to_int (z : Z) : Z := (z + 2147483648) mod 4294967296 - 2147483648.

(** Conversion to [long], and the result of a [long] operation. *)
Definition to_long (z : Z) : Z :=
  (z + 9223372036854775808) mod 18446744073709551616 - 9223372036854775808.

(** [abs] at type [int] and at type [long]. *)
Definition abs_int (z : Z) : Z := to_int (Z.abs z).
Definition abs_long (z : Z) : Z := to_long (Z.abs z).

End CInt.

Import CInt.

(** Modelled from the spec: the helper [int_to_string] of [Hoa.h], which is
    not among the sources: the decimal numeral of an integer. *)
Definition int_to_string (z : Z) : string := NilZero.string_of_int (Z.to_int z).

(** ** class Ambisonic *)

Module Ambisonic.

Record t : Type := Build {
  m_order : Z;                    (* unsigned int *)
  m_number_of_harmonics : Z;      (* unsigned int *)
  m_harmonics_orders : list Z     (* long*        *)
}.

Definition getDecompositionOrder (a : t) : Z := m_order a.

Definition getNumberOfHarmonics (a : t) : Z := m_number_of_harmonics a.

(** [long getHarmonicOrder(unsigned int index) const] *)
Definition getHarmonicOrder (a : t) (index : Z) : result Z :=
  if index <? m_number_of_harmonics a
  then array_get (m_harmonics_orders a) index
  else Err RangeError.

(** [long getHarmonicDegree(unsigned int index) const] *)
Definition getHarmonicDegree (a : t) (index : Z) : result Z :=
  if index <? m_number_of_harmonics a
  then d ← array_get (m_harmonics_orders a) index; Ok (abs_long d)
  else Err RangeError.

(** [unsigned int getHarmonicIndex(const int harmOrder) const].  The
    comparison of the assertion is between [int] and [unsigned int], so it
    is made at [unsigned int]; the products and differences are [int]
    operations and the returned value is converted to [unsigned int]. *)
Definition getHarmonicIndex (a : t) (harmOrder : Z) : result Z :=
  if to_uint (abs_int harmOrder) <=? getDecompositionOrder a
  then
    if harmOrder <? 0
    then Ok (to_uint (to_int (to_int (to_int (- harmOrder) * 2) - 1)))
    else Ok (to_uint (to_int (harmOrder * 2)))
  else Err RangeError.

(** The class invariant the accessors rely on: the table has one entry per
    harmonic and, as the header documents, "the order of an harmonic is in
    the range -order to order". *)
Definition wf (a : t) : Prop :=
  0 <= m_order a <= UINT_MAX
  /\ m_number_of_harmonics a = Z.of_nat (length (m_harmonics_orders a))
  /\ Forall (fun d => - m_order a <= d <= m_order a) (m_harmonics_orders a).

(** The entries that follow the first one: [-k, k, -(k+1), k+1, ...],
    [n] pairs of them. *)
Fixpoint orders_from (k : Z) (n : nat) : list Z :=
  match n with
  | O => []
  | S n' => - k :: k :: orders_from (k + 1) n'
  end.

(** Modelled from the spec: the table of the constructor
    [Ambisonic::Ambisonic], whose body is not in the header.  For order N
    the harmonics are arranged 0, -1, +1, -2, +2, ..., -N, +N (the header's
    "h[0] h[-1] h[1] h[-2] h[2] h[-3] h[3] etc."). *)
Definition harmonics_orders (order : Z) : list Z :=
  0 :: orders_from 1 (Z.to_nat order).

(** The canonical ordering in the words of the specification: "index 0 →
    degree 0; even index 2k → degree +k; odd index 2k-1 → degree -k". *)
Definition canonical_degree (index : Z) : Z :=
  if Z.even index then index / 2 else - ((index + 1) / 2).

(** Modelled from the spec: the constructor [Ambisonic::Ambisonic(unsigned
    int order)], whose body is not in the header.  An order below 1 is a
    configuration error; otherwise there are 2N+1 harmonics in the
    arrangement above. *)
Definition new (order : Z) : result t :=
  if order <? 1
  then Err ConfigurationError
  else Ok {| m_order := order;
             m_number_of_harmonics := 2 * order + 1;
             m_harmonics_orders := harmonics_orders order |}.

(** [std::string getHarmonicName(unsigned int index) const] *)
Definition getHarmonicName (a : t) (index : Z) : result string :=
  if index <? m_number_of_harmonics a
  then
    order ← getHarmonicOrder a index;
    Ok (String.append "Harmonic " (int_to_string order))
  else Err RangeError.

End Ambisonic.

(** ** Doubles and the helpers of [Hoa.h] *)

#[global] Instance R_eq_dec : EqDecision R := Req_dec_T.

(** Modelled from the spec: the constant [HOA_2PI] of [Hoa.h], which is not
    among the sources: the full turn, 2π. *)
Definition HOA_2PI : R := 2 * PI.

(** The cast [(int) x] of a double: the fractional part is discarded. *)
Definition double_to_int (x : R) : Z :=
  to_int (if Rle_dec 0 x then Int_part x else - Int_part (- x)).

(** Modelled from the spec: the normalisation of an azimuth "into [0, 2π)",
    the angle taken modulo the full turn (§3, §4.3, §4.4 "mod 2π").  The
    helper that does it in the library is not among the sources. *)
Definition wrap_twopi (x : R) : R :=
  (x - HOA_2PI * IZR (Int_part (x / HOA_2PI)))%R.

(** ** class Planewaves *)

Module Planewaves.

Record t : Type := Build {
  m_number_of_channels : Z;       (* unsigned int *)
  m_channels_azimuth : list R     (* double*      *)
}.

(** One azimuth is stored per channel. *)
Definition wf (p : t) : Prop :=
  m_number_of_channels p = Z.of_nat (length (m_channels_azimuth p)).

Definition getNumberOfChannels (p : t) : Z := m_number_of_channels p.

(** [double getChannelAzimuth(unsigned int index) const] *)
Definition getChannelAzimuth (p : t) (index : Z) : result R :=
  if index <? m_number_of_channels p
  then array_get (m_channels_azimuth p) index
  else Err RangeError.

(** [std::string getChannelName(unsigned int index)] *)
Definition getChannelName (p : t) (index : Z) : result string :=
  if index <? m_number_of_channels p
  then
    azimuth ← getChannelAzimuth p index;
    Ok (String.append "Channel "
         (String.append (int_to_string (to_uint (index + 1)))
           (String.append " : "
             (String.append
                (int_to_string (double_to_int (azimuth / HOA_2PI * 360)%R))
                "°"))))
  else Err RangeError.

(** Modelled from the spec: [Planewaves::setChannelAzimuth], declared in
    the header without a body.  The index must be below the number of
    channels ("the maximum index must be the number of channel - 1"); the
    azimuth is stored normalised. *)
Definition setChannelAzimuth (p : t) (index : Z) (azimuth : R) : result t :=
  if index <? m_number_of_channels p
  then Ok {| m_number_of_channels := m_number_of_channels p;
             m_channels_azimuth :=
               <[Z.to_nat index := wrap_twopi azimuth]> (m_channels_azimuth p) |}
  else Err RangeError.

(** Modelled from the spec: [Planewaves::setChannelsAzimuth], declared in
    the header without a body.  The array must hold at least one azimuth
    per channel; each channel stores its azimuth normalised. *)
Definition setChannelsAzimuth (p : t) (azimuths : list R) : result t :=
  if m_number_of_channels p <=? Z.of_nat (length azimuths)
  then Ok {| m_number_of_channels := m_number_of_channels p;
             m_channels_azimuth :=
               wrap_twopi <$> take (Z.to_nat (m_number_of_channels p)) azimuths |}
  else Err RangeError.

(** Modelled from the spec: the constructor [Planewaves::Planewaves], whose
    body is not in the header.  The channels start evenly spaced, the first
    one at the front. *)
Definition new (numberOfChannels : Z) : t :=
  {| m_number_of_channels := numberOfChannels;
     m_channels_azimuth :=
       (fun i => (IZR i / IZR numberOfChannels * HOA_2PI)%R)
         <$> seqZ 0 numberOfChannels |}.

(** [double getChannelAbscissa(unsigned int index) const] and [double
    getChannelOrdinate(unsigned int index) const].  The helpers [abscissa]
    and [ordinate] of [Hoa.h] (a radius and an azimuth to a coordinate) are
    not among the sources: they are parameters. *)
Definition getChannelAbscissa (abscissa : R -> R -> R) (p : t) (index : Z)
  : result R :=
  if index <? m_number_of_channels p
  then azimuth ← array_get (m_channels_azimuth p) index; Ok (abscissa 1%R azimuth)
  else Err RangeError.

Definition getChannelOrdinate (ordinate : R -> R -> R) (p : t) (index : Z)
  : result R :=
  if index <? m_number_of_channels p
  then azimuth ← array_get (m_channels_azimuth p) index; Ok (ordinate 1%R azimuth)
  else Err RangeError.

End Planewaves.

(** ** class DecoderRegular

    The decoding matrices, the harmonics vector and the encoder are left out
    of the records of the decoders: they are written and read by the members
    whose bodies are not in the header ([setChannelsOffset], [process]). *)

Module DecoderRegular.

Record t : Type := Build {
  ambisonic : Ambisonic.t;        (* base class Ambisonic  *)
  planewaves : Planewaves.t;      (* base class Planewaves *)
  m_offset : R
}.

Definition getChannelsOffset (d : t) : R := m_offset d.

(** The members inherited from [Planewaves]. *)
Definition getNumberOfChannels (d : t) : Z :=
  Planewaves.getNumberOfChannels (planewaves d).
Definition getChannelAzimuth (d : t) (index : Z) : result R :=
  Planewaves.getChannelAzimuth (planewaves d) index.
Definition getChannelName (d : t) (index : Z) : result string :=
  Planewaves.getChannelName (planewaves d) index.

(** Modelled from the spec: the constructor [DecoderRegular::DecoderRegular],
    declared in the header without a body.  It builds the two bases and
    "requires channelCount ≥ harmonicCount, else fails with a configuration
    error" (§4.4; the header: "the number of channels must be at least the
    number of harmonics"). *)
Definition new (order numberOfChannels : Z) : result t :=
  a ← Ambisonic.new order;
  if numberOfChannels <? Ambisonic.getNumberOfHarmonics a
  then Err ConfigurationError
  else Ok {| ambisonic := a;
             planewaves := Planewaves.new numberOfChannels;
             m_offset := 0 |}.

(** Inherited from [Planewaves] as well. *)
Definition getChannelAbscissa (abscissa : R -> R -> R) (d : t) (index : Z)
  : result R :=
  Planewaves.getChannelAbscissa abscissa (planewaves d) index.
Definition getChannelOrdinate (ordinate : R -> R -> R) (d : t) (index : Z)
  : result R :=
  Planewaves.getChannelOrdinate ordinate (planewaves d) index.

End DecoderRegular.

(** ** class DecoderIrregular *)

Module DecoderIrregular.

Record t : Type := Build {
  ambisonic : Ambisonic.t;
  planewaves : Planewaves.t;
  m_offset : R;
  m_number_of_virtual_channels : Z;       (* unsigned int     *)
  m_nearest_channel : list Z * list Z     (* unsigned int*[2] *)
}.

Definition getChannelsOffset (d : t) : R := m_offset d.

Definition getNumberOfVirutalChannels (d : t) : Z :=
  m_number_of_virtual_channels d.

Definition getNumberOfChannels (d : t) : Z :=
  Planewaves.getNumberOfChannels (planewaves d).
Definition getChannelAzimuth (d : t) (index : Z) : result R :=
  Planewaves.getChannelAzimuth (planewaves d) index.
Definition getChannelName (d : t) (index : Z) : result string :=
  Planewaves.getChannelName (planewaves d) index.

(** Inherited from [Planewaves] as well. *)
Definition getChannelAbscissa (abscissa : R -> R -> R) (d : t) (index : Z)
  : result R :=
  Planewaves.getChannelAbscissa abscissa (planewaves d) index.
Definition getChannelOrdinate (ordinate : R -> R -> R) (d : t) (index : Z)
  : result R :=
  Planewaves.getChannelOrdinate ordinate (planewaves d) index.

End DecoderIrregular.

(** ** class DecoderBinaural *)

Module DecoderBinaural.

Inductive PinnaSize : Type :=
| Small
| Large.

(** Modelled from the spec: the type [BinauralFilter] of [Hoa.h], which is
    not among the sources: the coefficients of one impulse response. *)
Definition BinauralFilter : Type := list R.

Record t : Type := Build {
  ambisonic : Ambisonic.t;
  planewaves : Planewaves.t;
  m_pinna_size : PinnaSize;
  m_decoder : DecoderRegular.t;           (* DecoderRegular* *)
  m_sampleRate : R;
  m_filters_left : list BinauralFilter;
  m_filters_right : list BinauralFilter
}.

Definition getPinnaSize (d : t) : PinnaSize := m_pinna_size d.

(** [std::string getChannelName(unsigned int index)] *)
Definition getChannelName (d : t) (index : Z) : result string :=
  if index <? 2
  then
    if index =? 0
    then Ok "Headphone Left"%string
    else Ok "Headphone Right"%string
  else Err RangeError.

Definition getNumberOfChannels (d : t) : Z :=
  Planewaves.getNumberOfChannels (planewaves d).
Definition getChannelAzimuth (d : t) (index : Z) : result R :=
  Planewaves.getChannelAzimuth (planewaves d) index.

(** Modelled from the spec: "supported rates are a fixed enumerated set
    (44100, 48000, 88200, 96000)" (§4.6). *)
Definition supported_sample_rates : list R :=
  [44100%R; 48000%R; 88200%R; 96000%R].

Section Filters.

(** The impulse responses are an external asset (§6): a read-only table
    from the order, the pinna size, the sample rate and the virtual
    channel to the left and right coefficients. *)
Variable hrtf : Z -> PinnaSize -> R -> Z -> BinauralFilter * BinauralFilter.

(** Modelled from the spec: the table entry of every virtual channel of
    the inner regular decoder. *)
Definition load_filters (d : t) (sampleRate : R)
  : list (BinauralFilter * BinauralFilter) :=
  hrtf (Ambisonic.getDecompositionOrder (ambisonic d)) (m_pinna_size d) sampleRate
    <$> seqZ 0 (DecoderRegular.getNumberOfChannels (m_decoder d)).

(** Modelled from the spec: [DecoderBinaural::setSampleRate], declared in
    the header without a body.  A supported rate "selects and loads the
    (order, pinnaSize, rate) filter entry for every virtual channel,
    replacing any previously loaded filters"; "any other value fails with
    a configuration error".  The decoder after the call is returned next
    to the outcome. *)
Definition setSampleRate (d : t) (sampleRate : R) : result unit * t :=
  if decide (sampleRate ∈ supported_sample_rates)
  then
    (Ok tt,
     {| ambisonic := ambisonic d;
        planewaves := planewaves d;
        m_pinna_size := m_pinna_size d;
        m_decoder := m_decoder d;
        m_sampleRate := sampleRate;
        m_filters_left := fst <$> load_filters d sampleRate;
        m_filters_right := snd <$> load_filters d sampleRate |})
  else (Err ConfigurationError, d).

End Filters.

(** Inherited from [Planewaves] as well. *)
Definition getChannelAbscissa (abscissa : R -> R -> R) (d : t) (index : Z)
  : result R :=
  Planewaves.getChannelAbscissa abscissa (planewaves d) index.
Definition getChannelOrdinate (ordinate : R -> R -> R) (d : t) (index : Z)
  : result R :=
  Planewaves.getChannelOrdinate ordinate (planewaves d) index.

End DecoderBinaural.

(** ** class DecoderMulti *)

Module DecoderMulti.

Inductive Mode : Type :=
| Regular
| Irregular
| Binaural.

(** The three decoders are held by pointer; "the multi-decoder constructor
    allocates and initialize the three decoder", so each is there. *)
Record t : Type := Build {
  ambisonic : Ambisonic.t;
  planewaves : Planewaves.t;
  m_decoder_regular : DecoderRegular.t;
  m_decoder_irregular : DecoderIrregular.t;
  m_decoder_binaural : DecoderBinaural.t;
  m_mode : Mode;
  m_sample_rate : Z                       (* unsigned int *)
}.

Definition getDecodingMode (m : t) : Mode := m_mode m.

Definition getNumberOfChannels (m : t) : Z :=
  match m_mode m with
  | Regular => DecoderRegular.getNumberOfChannels (m_decoder_regular m)
  | Irregular => DecoderIrregular.getNumberOfChannels (m_decoder_irregular m)
  | Binaural => DecoderBinaural.getNumberOfChannels (m_decoder_binaural m)
  end.

Definition getNumberOfVirutalChannels (m : t) : Z :=
  match m_mode m with
  | Irregular => DecoderIrregular.getNumberOfVirutalChannels (m_decoder_irregular m)
  | _ => 0
  end.

Definition getChannelsOffset (m : t) : R :=
  match m_mode m with
  | Regular => DecoderRegular.getChannelsOffset (m_decoder_regular m)
  | Irregular => DecoderIrregular.getChannelsOffset (m_decoder_irregular m)
  | Binaural => 0%R
  end.

Definition getPinnaSize (m : t) : DecoderBinaural.PinnaSize :=
  DecoderBinaural.getPinnaSize (m_decoder_binaural m).

Definition getChannelAzimuth (m : t) (index : Z) : result R :=
  match m_mode m with
  | Regular => DecoderRegular.getChannelAzimuth (m_decoder_regular m) index
  | Irregular => DecoderIrregular.getChannelAzimuth (m_decoder_irregular m) index
  | Binaural => DecoderBinaural.getChannelAzimuth (m_decoder_binaural m) index
  end.

Definition getChannelName (m : t) (index : Z) : result string :=
  match m_mode m with
  | Regular => DecoderRegular.getChannelName (m_decoder_regular m) index
  | Irregular => DecoderIrregular.getChannelName (m_decoder_irregular m) index
  | Binaural => DecoderBinaural.getChannelName (m_decoder_binaural m) index
  end.

Definition getChannelAbscissa (abscissa : R -> R -> R) (m : t) (index : Z)
  : result R :=
  match m_mode m with
  | Regular => DecoderRegular.getChannelAbscissa abscissa (m_decoder_regular m) index
  | Irregular =>
      DecoderIrregular.getChannelAbscissa abscissa (m_decoder_irregular m) index
  | Binaural => DecoderBinaural.getChannelAbscissa abscissa (m_decoder_binaural m) index
  end.

Definition getChannelOrdinate (ordinate : R -> R -> R) (m : t) (index : Z)
  : result R :=
  match m_mode m with
  | Regular => DecoderRegular.getChannelOrdinate ordinate (m_decoder_regular m) index
  | Irregular =>
      DecoderIrregular.getChannelOrdinate ordinate (m_decoder_irregular m) index
  | Binaural => DecoderBinaural.getChannelOrdinate ordinate (m_decoder_binaural m) index
  end.

(** The three decoders of a multi-decoder store one azimuth per channel. *)
Definition wf (m : t) : Prop :=
  Planewaves.wf (DecoderRegular.planewaves (m_decoder_regular m))
  /\ Planewaves.wf (DecoderIrregular.planewaves (m_decoder_irregular m))
  /\ Planewaves.wf (DecoderBinaural.planewaves (m_decoder_binaural m)).

(** *** The active decoder and what it answers

    The decoder the mode selects, and the read queries the three classes
    declare.  A query a class does not declare has no answer: only the
    regular and irregular decoders have [getChannelsOffset], only the
    binaural decoder has [getPinnaSize]. *)

Inductive decoder : Type :=
| ARegular (d : DecoderRegular.t)
| AIrregular (d : DecoderIrregular.t)
| ABinaural (d : DecoderBinaural.t).

Definition active (m : t) : decoder :=
  match m_mode m with
  | Regular => ARegular (m_decoder_regular m)
  | Irregular => AIrregular (m_decoder_irregular m)
  | Binaural => ABinaural (m_decoder_binaural m)
  end.

Definition decoder_getNumberOfChannels (a : decoder) : Z :=
  match a with
  | ARegular d => DecoderRegular.getNumberOfChannels d
  | AIrregular d => DecoderIrregular.getNumberOfChannels d
  | ABinaural d => DecoderBinaural.getNumberOfChannels d
  end.

Definition decoder_getChannelAzimuth (a : decoder) (index : Z) : result R :=
  match a with
  | ARegular d => DecoderRegular.getChannelAzimuth d index
  | AIrregular d => DecoderIrregular.getChannelAzimuth d index
  | ABinaural d => DecoderBinaural.getChannelAzimuth d index
  end.

Definition decoder_getChannelName (a : decoder) (index : Z) : result string :=
  match a with
  | ARegular d => DecoderRegular.getChannelName d index
  | AIrregular d => DecoderIrregular.getChannelName d index
  | ABinaural d => DecoderBinaural.getChannelName d index
  end.

Definition decoder_getChannelsOffset (a : decoder) : option R :=
  match a with
  | ARegular d => Some (DecoderRegular.getChannelsOffset d)
  | AIrregular d => Some (DecoderIrregular.getChannelsOffset d)
  | ABinaural _ => None
  end.

Definition decoder_getPinnaSize (a : decoder) : option DecoderBinaural.PinnaSize :=
  match a with
  | ARegular _ => None
  | AIrregular _ => None
  | ABinaural d => Some (DecoderBinaural.getPinnaSize d)
  end.

(** Every read accessor answers what the active decoder answers. *)
Definition forwards_every_accessor (m : t) : Prop :=
  getNumberOfChannels m = decoder_getNumberOfChannels (active m)
  /\ (forall index, getChannelAzimuth m index = decoder_getChannelAzimuth (active m) index)
  /\ Some (getChannelsOffset m) = decoder_getChannelsOffset (active m)
  /\ Some (getPinnaSize m) = decoder_getPinnaSize (active m)
  /\ (forall index, getChannelName m index = decoder_getChannelName (active m) index).

End DecoderMulti.

(** ** Sample objects

    A multi-decoder of order 1 as its constructor leaves it (regular mode,
    2 * order + 2 channels), and the same after a switch to the binaural
    mode or with the other pinna size. *)

Module Samples.

Definition harmonics : Ambisonic.t := Ambisonic.Build 1 3 [0; -1; 1].

Definition square : Planewaves.t :=
  Planewaves.Build 4 [0%R; (PI / 2)%R; PI; (3 * PI / 2)%R].

Definition stereo : Planewaves.t :=
  Planewaves.Build 2 [(PI / 6)%R; (11 * PI / 6)%R].

Definition headphones : Planewaves.t :=
  Planewaves.Build 2 [(PI / 2)%R; (3 * PI / 2)%R].

Definition regular : DecoderRegular.t :=
  DecoderRegular.Build harmonics square (PI / 4).

Definition irregular : DecoderIrregular.t :=
  DecoderIrregular.Build harmonics stereo 0 3 ([0; 1; 1], [0; 0; 1]).

Definition binaural (pinna : DecoderBinaural.PinnaSize) : DecoderBinaural.t :=
  DecoderBinaural.Build harmonics headphones pinna regular 44100 [] [].

Definition multi (mode : DecoderMulti.Mode) (pinna : DecoderBinaural.PinnaSize)
  : DecoderMulti.t :=
  DecoderMulti.Build harmonics square regular irregular (binaural pinna) mode 44100.

(** A filter table with nothing in it. *)
Definition no_filters (order : Z) (pinna : DecoderBinaural.PinnaSize)
    (sampleRate : R) (channel : Z)
  : DecoderBinaural.BinauralFilter * DecoderBinaural.BinauralFilter :=
  ([], []).

End Samples.

(** ** Proofs *)

(** An index check that holds: the branch of the failed assertion goes. *)
Ltac assert_holds :=
  match goal with
  | |- context [if ?a <? ?b then _ else _] =>
      destruct (Z.ltb_spec a b); [|lia]
  | |- context [if ?a <=? ?b then _ else _] =>
      destruct (Z.leb_spec a b); [|lia]
  end.

(** ** Harmonic indexing *)

Section HarmonicIndexing.

Import Ambisonic.

Lemma length_orders_from (n : nat) (k : Z) :
  length (orders_from k n) = (2 * n)%nat.
Proof.
  revert k; induction n as [|n IH]; intros k; simpl; [reflexivity|].
  rewrite IH; lia.
Qed.

Lemma lookup_orders_from_odd (n : nat) : forall (k : Z) (j : nat),
  (j < n)%nat -> orders_from k n !! (2 * j + 1)%nat = Some (k + Z.of_nat j).
Proof.
  induction n as [|n IH]; intros k j Hj; [lia|].
  destruct j as [|j].
  - simpl. f_equal; lia.
  - replace (2 * S j + 1)%nat with (S (S (2 * j + 1))) by lia.
    change (orders_from (k + 1) n !! (2 * j + 1)%nat = Some (k + Z.of_nat (S j))).
    rewrite IH by lia. f_equal; lia.
Qed.

Lemma lookup_orders_from_even (n : nat) : forall (k : Z) (j : nat),
  (j < n)%nat -> orders_from k n !! (2 * j)%nat = Some (- (k + Z.of_nat j)).
Proof.
  induction n as [|n IH]; intros k j Hj; [lia|].
  destruct j as [|j].
  - simpl. f_equal; lia.
  - replace (2 * S j)%nat with (S (S (2 * j))) by lia.
    change (orders_from (k + 1) n !! (2 * j)%nat = Some (- (k + Z.of_nat (S j)))).
    rewrite IH by lia. f_equal; lia.
Qed.

Lemma Forall_orders_from (n : nat) : forall (k b : Z),
  0 <= k -> k + Z.of_nat n <= b + 1 ->
  Forall (fun d => - b <= d <= b) (orders_from k n).
Proof.
  induction n as [|n IH]; intros k b Hk Hb; simpl.
  - constructor.
  - constructor; [lia|]. constructor; [lia|]. apply IH; lia.
Qed.

(** The arrangement for order 3. *)
Example harmonics_orders_3 : harmonics_orders 3 = [0; -1; 1; -2; 2; -3; 3].
Proof. reflexivity. Qed.

(** The table at a positive degree [k] and at its negative. *)
Lemma lookup_harmonics_orders_pos (order k : Z) :
  1 <= k <= order ->
  array_get (harmonics_orders order) (2 * k) = Ok k.
Proof.
  intros Hk. unfold array_get, harmonics_orders.
  replace (Z.to_nat (2 * k)) with (S (2 * Z.to_nat (k - 1) + 1)) by lia.
  change ((0 :: orders_from 1 (Z.to_nat order)) !! S (2 * Z.to_nat (k - 1) + 1))
    with (orders_from 1 (Z.to_nat order) !! (2 * Z.to_nat (k - 1) + 1)%nat).
  rewrite lookup_orders_from_odd by lia. f_equal; lia.
Qed.

Lemma lookup_harmonics_orders_neg (order k : Z) :
  1 <= k <= order ->
  array_get (harmonics_orders order) (2 * k - 1) = Ok (- k).
Proof.
  intros Hk. unfold array_get, harmonics_orders.
  replace (Z.to_nat (2 * k - 1)) with (S (2 * Z.to_nat (k - 1))) by lia.
  change ((0 :: orders_from 1 (Z.to_nat order)) !! S (2 * Z.to_nat (k - 1)))
    with (orders_from 1 (Z.to_nat order) !! (2 * Z.to_nat (k - 1))%nat).
  rewrite lookup_orders_from_even by lia. f_equal; lia.
Qed.

Lemma lookup_harmonics_orders_zero (order : Z) :
  array_get (harmonics_orders order) 0 = Ok 0.
Proof. reflexivity. Qed.

Lemma new_ok (order : Z) :
  1 <= order ->
  new order = Ok {| m_order := order;
                    m_number_of_harmonics := 2 * order + 1;
                    m_harmonics_orders := harmonics_orders order |}.
Proof.
  intros H. unfold new. destruct (Z.ltb_spec order 1); [lia|reflexivity].
Qed.

Lemma new_wf (order : Z) (a : t) :
  order <= UINT_MAX -> new order = Ok a -> wf a.
Proof.
  unfold new, UINT_MAX. intros Hmax.
  destruct (Z.ltb_spec order 1) as [|H1]; [discriminate|].
  intros [= <-]. unfold wf; simpl.
  rewrite length_orders_from.
  split; [unfold UINT_MAX; lia|]. split; [lia|].
  constructor; [lia|]. apply Forall_orders_from; lia.
Qed.

(** Every index is 0, an even [2k] or an odd [2k-1] with [1 <= k]. *)
Lemma index_cases (order i : Z) :
  0 <= i <= 2 * order ->
  i = 0 \/ exists k, 1 <= k <= order /\ (i = 2 * k \/ i = 2 * k - 1).
Proof.
  intros Hi. destruct (Z.eq_dec i 0) as [|Hn]; [now left|right].
  exists ((i + 1) / 2).
  assert (H := Z.div_mod (i + 1) 2 ltac:(lia)).
  assert (H' := Z.mod_pos_bound (i + 1) 2 ltac:(lia)).
  lia.
Qed.

Lemma table_lookup (N i : Z) :
  0 <= i <= 2 * N ->
  array_get (harmonics_orders N) i = Ok (canonical_degree i).
Proof.
  intros Hi. unfold canonical_degree.
  destruct (index_cases N i Hi) as [->|(k & Hk & [->| ->])].
  - reflexivity.
  - rewrite lookup_harmonics_orders_pos by assumption.
    rewrite Z.even_mul; simpl. f_equal.
    rewrite Z.mul_comm, Z.div_mul; lia.
  - rewrite lookup_harmonics_orders_neg by assumption.
    replace (2 * k - 1) with (1 + 2 * (k - 1)) by lia.
    rewrite Z.even_add_mul_2; simpl. f_equal.
    replace (1 + 2 * (k - 1) + 1) with (k * 2) by lia.
    rewrite Z.div_mul; lia.
Qed.

Lemma to_int_small (z : Z) : INT_MIN <= z <= INT_MAX -> to_int z = z.
Proof.
  unfold INT_MIN, INT_MAX, to_int. intros H.
  rewrite Z.mod_small; lia.
Qed.

Lemma to_uint_small (z : Z) : 0 <= z <= UINT_MAX -> to_uint z = z.
Proof. unfold UINT_MAX, to_uint. intros H. apply Z.mod_small; lia. Qed.

Lemma to_uint_to_int (z : Z) : to_uint (to_int z) = to_uint z.
Proof. unfold to_uint, to_int. Z.div_mod_to_equations. lia. Qed.

Lemma abs_long_small (z : Z) : - UINT_MAX <= z <= UINT_MAX -> abs_long z = Z.abs z.
Proof.
  unfold UINT_MAX, abs_long, to_long. intros H.
  rewrite Z.mod_small; lia.
Qed.

(** The index of a degree within the order, by the code of
    [getHarmonicIndex]: [2k] for [k >= 0] and [-2k - 1] for [k < 0], as
    long as that index is an [unsigned int]. *)
Lemma getHarmonicIndex_in_range (a : t) (d : Z) :
  0 <= m_order a <= UINT_MAX ->
  - m_order a <= d <= m_order a ->
  (if d <? 0 then - d * 2 - 1 else d * 2) <= UINT_MAX ->
  getHarmonicIndex a (to_int d)
  = Ok (if d <? 0 then - d * 2 - 1 else d * 2).
Proof.
  unfold UINT_MAX. intros Horder Hd Hfit.
  assert (Hint : to_int d = d).
  { destruct (Z.ltb_spec d 0); apply to_int_small; unfold INT_MIN, INT_MAX; lia. }
  rewrite Hint.
  unfold getHarmonicIndex, getDecompositionOrder, abs_int.
  rewrite !to_uint_to_int.
  assert (Habs : to_uint (Z.abs d) = Z.abs d).
  { destruct (Z.ltb_spec d 0); apply to_uint_small; unfold UINT_MAX; lia. }
  rewrite Habs. assert_holds.
  destruct (Z.ltb_spec d 0).
  - f_equal. unfold to_int, to_uint. Z.div_mod_to_equations. lia.
  - f_equal. apply to_uint_small. unfold UINT_MAX; lia.
Qed.

(** At the ends of the [int] range the [int] operations wrap and the
    conversion to [unsigned int] undoes it. *)
Example getHarmonicIndex_wraps :
  getHarmonicIndex (Build 2147483648 4294967295 []) (to_int (- 2147483648))
  = Ok 4294967295
  /\ getHarmonicIndex (Build 2147483648 4294967295 []) (to_int 2147483647)
    = Ok 4294967294.
Proof. split; reflexivity. Qed.

(** The degree at an index, in the words of the specification, and the
    index [getHarmonicIndex] computes for it. *)
Lemma canonical_degree_index (i : Z) :
  0 <= i ->
  (if canonical_degree i <? 0
   then - canonical_degree i * 2 - 1
   else canonical_degree i * 2) = i.
Proof.
  intros Hi. unfold canonical_degree.
  destruct (Z.even i) eqn:Heven.
  - apply Z.even_spec in Heven as [k ->].
    rewrite (Z.mul_comm 2 k), Z.div_mul by lia.
    destruct (Z.ltb_spec k 0); lia.
  - assert (Hodd : Z.odd i = true) by (rewrite <- Z.negb_even, Heven; reflexivity).
    apply Z.odd_spec in Hodd as [k ->].
    replace (2 * k + 1 + 1) with ((k + 1) * 2) by lia.
    rewrite Z.div_mul by lia.
    destruct (Z.ltb_spec (- (k + 1)) 0); lia.
Qed.

Lemma canonical_degree_bound (N i : Z) :
  0 <= i <= 2 * N -> - N <= canonical_degree i <= N.
Proof.
  intros Hi. unfold canonical_degree.
  destruct (Z.even i); Z.div_mod_to_equations; lia.
Qed.

(** C2. For every order N >= 1 the constructor succeeds, the number of
    harmonics is 2N+1 and the signed accessor [getHarmonicOrder] yields the
    canonical sequence 0, -1, +1, -2, +2, ...: index 0 has degree 0, the
    even index 2k degree +k, the odd index 2k-1 degree -k. *)
Theorem harmonic_count_and_canonical_order (N : Z) :
  1 <= N ->
  exists a, new N = Ok a
    /\ getNumberOfHarmonics a = 2 * N + 1
    /\ getHarmonicOrder a 0 = Ok 0
    /\ (forall k, 1 <= k <= N ->
          getHarmonicOrder a (2 * k) = Ok k
          /\ getHarmonicOrder a (2 * k - 1) = Ok (- k))
    /\ (forall i, 0 <= i <= 2 * N -> getHarmonicOrder a i = Ok (canonical_degree i)).
Proof.
  intros HN. eexists. split; [apply new_ok; assumption|].
  unfold getNumberOfHarmonics, getHarmonicOrder; simpl.
  split; [reflexivity|]. split.
  - assert_holds. reflexivity.
  - split.
    + intros k Hk. do 2 assert_holds.
      split; [apply lookup_harmonics_orders_pos|apply lookup_harmonics_orders_neg];
        assumption.
    + intros i Hi. assert_holds.
      apply table_lookup; assumption.
Qed.

Lemma harmonic_count_and_canonical_order_witness :
  1 <= 3
  /\ exists a, new 3 = Ok a
    /\ getNumberOfHarmonics a = 2 * 3 + 1
    /\ getHarmonicOrder a 0 = Ok 0
    /\ (forall k, 1 <= k <= 3 ->
          getHarmonicOrder a (2 * k) = Ok k
          /\ getHarmonicOrder a (2 * k - 1) = Ok (- k))
    /\ (forall i, 0 <= i <= 2 * 3 -> getHarmonicOrder a i = Ok (canonical_degree i)).
Proof.
  split; [lia|]. apply (harmonic_count_and_canonical_order 3). lia.
Defined.

(** C1. For every order N >= 1 and every index i in [0, 2N], both of them
    [unsigned int] values, [getHarmonicIndex] applied to the signed value
    that [getHarmonicOrder] returns for i gives i back. *)
Theorem harmonic_index_roundtrip (N i : Z) :
  1 <= N <= UINT_MAX -> 0 <= i <= 2 * N -> i <= UINT_MAX ->
  exists a d, new N = Ok a
    /\ getHarmonicOrder a i = Ok d
    /\ getHarmonicIndex a (to_int d) = Ok i.
Proof.
  intros HN Hi Hfit.
  eexists. exists (canonical_degree i).
  split; [apply new_ok; lia|].
  split.
  - unfold getHarmonicOrder; cbn [m_number_of_harmonics m_harmonics_orders].
    assert_holds. apply table_lookup; assumption.
  - rewrite getHarmonicIndex_in_range; cbn [m_order].
    + rewrite canonical_degree_index by lia. reflexivity.
    + lia.
    + apply canonical_degree_bound; assumption.
    + rewrite canonical_degree_index by lia. assumption.
Qed.

Lemma harmonic_index_roundtrip_witness :
  1 <= 2 <= UINT_MAX /\ 0 <= 3 <= 2 * 2 /\ 3 <= UINT_MAX
  /\ exists a d, new 2 = Ok a
    /\ getHarmonicOrder a 3 = Ok d
    /\ getHarmonicIndex a (to_int d) = Ok 3.
Proof.
  assert (HN : 1 <= 2 <= UINT_MAX) by (unfold UINT_MAX; lia).
  assert (Hi : 0 <= 3 <= 2 * 2) by lia.
  assert (Hfit : 3 <= UINT_MAX) by (unfold UINT_MAX; lia).
  split; [exact HN|]. split; [exact Hi|]. split; [exact Hfit|].
  exact (harmonic_index_roundtrip 2 3 HN Hi Hfit).
Defined.

(** The unsigned accessor is no inverse of [getHarmonicIndex]: at the odd
    index 1 of order 1 it gives 1, whose index is 2. *)
Example harmonic_degree_no_roundtrip :
  exists a, new 1 = Ok a
    /\ getHarmonicDegree a 1 = Ok 1
    /\ getHarmonicIndex a (to_int 1) = Ok 2.
Proof. eexists. repeat split. Qed.

(** C9. On an Ambisonic object (table of one entry per harmonic, each
    within -order..order) and for every index below the number of
    harmonics, [getHarmonicDegree] is the absolute value of
    [getHarmonicOrder]; it never returns a negative value. *)
Theorem harmonic_degree_is_abs_order (a : t) (i : Z) :
  wf a -> 0 <= i < getNumberOfHarmonics a ->
  exists d, getHarmonicOrder a i = Ok d
    /\ getHarmonicDegree a i = Ok (Z.abs d)
    /\ (forall r, getHarmonicDegree a i = Ok r -> 0 <= r).
Proof.
  unfold wf, getNumberOfHarmonics, getHarmonicOrder, getHarmonicDegree.
  intros (Hord & Hlen & Hall) Hi. assert_holds.
  unfold array_get.
  destruct (lookup_lt_is_Some_2 (m_harmonics_orders a) (Z.to_nat i) ltac:(lia))
    as [d Hd].
  rewrite Hd. exists d. split; [reflexivity|].
  assert (Hb : - m_order a <= d <= m_order a).
  { rewrite Forall_lookup in Hall. exact (Hall _ _ Hd). }
  simpl. rewrite abs_long_small by lia.
  split; [reflexivity|]. intros r [= <-]. lia.
Qed.

Lemma harmonic_degree_is_abs_order_witness :
  wf (Build 1 3 [0; -1; 1]) /\ 0 <= 1 < getNumberOfHarmonics (Build 1 3 [0; -1; 1])
  /\ exists d, getHarmonicOrder (Build 1 3 [0; -1; 1]) 1 = Ok d
    /\ getHarmonicDegree (Build 1 3 [0; -1; 1]) 1 = Ok (Z.abs d)
    /\ (forall r, getHarmonicDegree (Build 1 3 [0; -1; 1]) 1 = Ok r -> 0 <= r).
Proof.
  assert (Hwf : wf (Build 1 3 [0; -1; 1])).
  { unfold wf, UINT_MAX; simpl. repeat split; try lia.
    repeat constructor; lia. }
  assert (Hi : 0 <= 1 < getNumberOfHarmonics (Build 1 3 [0; -1; 1])).
  { unfold getNumberOfHarmonics; simpl; lia. }
  split; [exact Hwf|]. split; [exact Hi|].
  exact (harmonic_degree_is_abs_order (Build 1 3 [0; -1; 1]) 1 Hwf Hi).
Defined.

End HarmonicIndexing.

(** ** Channel azimuths *)

Section ChannelAzimuth.

Import Planewaves.

Lemma HOA_2PI_pos : (0 < HOA_2PI)%R.
Proof. unfold HOA_2PI. pose proof PI_RGT_0. lra. Qed.

Lemma wrap_twopi_range (x : R) : (0 <= wrap_twopi x < 2 * PI)%R.
Proof.
  unfold wrap_twopi. fold HOA_2PI.
  pose proof HOA_2PI_pos as HT.
  destruct (base_Int_part (x / HOA_2PI)) as [Hlo Hhi].
  set (n := IZR (Int_part (x / HOA_2PI))) in *.
  assert (Hx : (x = x / HOA_2PI * HOA_2PI)%R) by (field; lra).
  split.
  - assert (0 <= (x / HOA_2PI - n) * HOA_2PI)%R
      by (apply Rmult_le_pos; lra).
    lra.
  - assert ((x / HOA_2PI - n) * HOA_2PI < 1 * HOA_2PI)%R
      by (apply Rmult_lt_compat_r; lra).
    lra.
Qed.

Lemma wrap_twopi_quarter_turn_back :
  wrap_twopi (- PI / 2) = (3 * PI / 2)%R.
Proof.
  unfold wrap_twopi, HOA_2PI.
  pose proof PI_RGT_0 as Hpi.
  replace (- PI / 2 / (2 * PI))%R with (- (1 / 4))%R by (field; lra).
  rewrite <- (Int_part_spec (- (1 / 4)) (-1)) by (simpl; lra).
  simpl. lra.
Qed.

Lemma getChannelAzimuth_lookup (p : t) (index : Z) (x : R) :
  0 <= index < m_number_of_channels p ->
  m_channels_azimuth p !! Z.to_nat index = Some x ->
  getChannelAzimuth p index = Ok x.
Proof.
  intros Hi Hx. unfold getChannelAzimuth, array_get. assert_holds.
  rewrite Hx. reflexivity.
Qed.

Lemma setChannelAzimuth_get (p : t) (index : Z) (azimuth : R) :
  wf p -> 0 <= index < getNumberOfChannels p ->
  exists p', setChannelAzimuth p index azimuth = Ok p'
    /\ wf p'
    /\ getChannelAzimuth p' index = Ok (wrap_twopi azimuth).
Proof.
  unfold wf, getNumberOfChannels, setChannelAzimuth. intros Hwf Hi.
  assert_holds.
  eexists. split; [reflexivity|]. split.
  - cbn [m_number_of_channels m_channels_azimuth].
    rewrite length_insert. exact Hwf.
  - apply getChannelAzimuth_lookup; cbn [m_number_of_channels m_channels_azimuth].
    + lia.
    + apply list_lookup_insert_eq. lia.
Qed.

Lemma setChannelsAzimuth_get (p : t) (azimuths : list R) (index : Z) :
  getNumberOfChannels p <= Z.of_nat (length azimuths) ->
  0 <= index < getNumberOfChannels p ->
  exists p' x, setChannelsAzimuth p azimuths = Ok p'
    /\ wf p'
    /\ azimuths !! Z.to_nat index = Some x
    /\ getChannelAzimuth p' index = Ok (wrap_twopi x).
Proof.
  unfold wf, getNumberOfChannels, setChannelsAzimuth. intros Hlen Hi.
  assert_holds.
  destruct (lookup_lt_is_Some_2 azimuths (Z.to_nat index) ltac:(lia)) as [x Hx].
  eexists. exists x. split; [reflexivity|]. split.
  - cbn [m_number_of_channels m_channels_azimuth].
    rewrite length_fmap, length_take. lia.
  - split; [exact Hx|].
    apply getChannelAzimuth_lookup; cbn [m_number_of_channels m_channels_azimuth].
    + lia.
    + rewrite list_lookup_fmap, lookup_take_lt by lia.
      rewrite Hx. reflexivity.
Qed.

(** C4. After [setChannelAzimuth], and after [setChannelsAzimuth], the
    azimuth [getChannelAzimuth] reports for a channel that was set lies in
    [0, 2π), whatever real number was given; given -π/2 it reports 3π/2. *)
Theorem channel_azimuth_reported_normalized :
  (forall (p : t) (index : Z) (azimuth : R),
      wf p -> 0 <= index < getNumberOfChannels p ->
      exists p' v, setChannelAzimuth p index azimuth = Ok p'
        /\ getChannelAzimuth p' index = Ok v
        /\ (0 <= v < 2 * PI)%R
        /\ (azimuth = (- PI / 2)%R -> v = (3 * PI / 2)%R))
  /\ (forall (p : t) (azimuths : list R) (index : Z),
      getNumberOfChannels p <= Z.of_nat (length azimuths) ->
      0 <= index < getNumberOfChannels p ->
      exists p' v, setChannelsAzimuth p azimuths = Ok p'
        /\ getChannelAzimuth p' index = Ok v
        /\ (0 <= v < 2 * PI)%R
        /\ (azimuths !! Z.to_nat index = Some (- PI / 2)%R -> v = (3 * PI / 2)%R)).
Proof.
  split.
  - intros p index azimuth Hwf Hi.
    destruct (setChannelAzimuth_get p index azimuth Hwf Hi) as (p' & Hset & _ & Hget).
    exists p', (wrap_twopi azimuth).
    split; [exact Hset|]. split; [exact Hget|].
    split; [apply wrap_twopi_range|].
    intros ->. apply wrap_twopi_quarter_turn_back.
  - intros p azimuths index Hlen Hi.
    destruct (setChannelsAzimuth_get p azimuths index Hlen Hi)
      as (p' & x & Hset & _ & Hx & Hget).
    exists p', (wrap_twopi x).
    split; [exact Hset|]. split; [exact Hget|].
    split; [apply wrap_twopi_range|].
    rewrite Hx. intros [= ->]. apply wrap_twopi_quarter_turn_back.
Qed.

Lemma channel_azimuth_reported_normalized_witness :
  exists p' v, setChannelAzimuth (Build 2 [0%R; PI]) 1 (- PI / 2) = Ok p'
    /\ getChannelAzimuth p' 1 = Ok v
    /\ (0 <= v < 2 * PI)%R
    /\ v = (3 * PI / 2)%R.
Proof.
  destruct (proj1 channel_azimuth_reported_normalized
              (Build 2 [0%R; PI]) 1 (- PI / 2)%R eq_refl
              (conj (Z.le_0_1) (eq_refl : (1 ?= 2) = Lt)))
    as (p' & v & Hset & Hget & Hrange & Hval).
  exists p', v. repeat split; try assumption; try apply Hrange.
  apply Hval. reflexivity.
Defined.

End ChannelAzimuth.

(** ** Construction of the regular decoder *)

Section RegularConstruction.

Import DecoderRegular.

Lemma new_unfold (order numberOfChannels : Z) :
  new order numberOfChannels =
  if order <? 1 then Err ConfigurationError
  else if numberOfChannels <? 2 * order + 1 then Err ConfigurationError
  else Ok {| ambisonic := Ambisonic.Build order (2 * order + 1)
                            (Ambisonic.harmonics_orders order);
             planewaves := Planewaves.new numberOfChannels;
             m_offset := 0 |}.
Proof.
  unfold new, Ambisonic.new.
  destruct (order <? 1); reflexivity.
Qed.

(** C5. Constructing a regular decoder with fewer channels than harmonics
    (2N+1) fails with a configuration error; a construction that succeeds
    has at least as many channels as harmonics, and with an order of at
    least 1 and that many channels it does succeed. *)
Theorem regular_decoder_needs_harmonics_many_channels
    (order numberOfChannels : Z) :
  (numberOfChannels < 2 * order + 1 ->
     new order numberOfChannels = Err ConfigurationError)
  /\ (forall d, new order numberOfChannels = Ok d ->
        Ambisonic.getNumberOfHarmonics (ambisonic d) = 2 * order + 1
        /\ getNumberOfChannels d = numberOfChannels
        /\ Ambisonic.getNumberOfHarmonics (ambisonic d) <= getNumberOfChannels d)
  /\ (1 <= order -> 2 * order + 1 <= numberOfChannels ->
        exists d, new order numberOfChannels = Ok d).
Proof.
  rewrite new_unfold.
  destruct (Z.ltb_spec order 1) as [Ho|Ho];
    destruct (Z.ltb_spec numberOfChannels (2 * order + 1)) as [Hc|Hc].
  - split; [reflexivity|]. split; [discriminate|lia].
  - split; [reflexivity|]. split; [discriminate|lia].
  - split; [reflexivity|]. split; [discriminate|lia].
  - split; [lia|]. split.
    + intros d [= <-].
      unfold getNumberOfChannels, Ambisonic.getNumberOfHarmonics,
        Planewaves.getNumberOfChannels, Planewaves.new.
      cbn [ambisonic planewaves Ambisonic.m_number_of_harmonics
           Planewaves.m_number_of_channels].
      lia.
    + intros _ _. eexists. reflexivity.
Qed.

Lemma regular_decoder_needs_harmonics_many_channels_witness :
  new 1 2 = Err ConfigurationError /\ exists d, new 1 4 = Ok d.
Proof.
  split.
  - apply (proj1 (regular_decoder_needs_harmonics_many_channels 1 2)).
    reflexivity.
  - apply (proj2 (proj2 (regular_decoder_needs_harmonics_many_channels 1 4)));
      discriminate.
Defined.

End RegularConstruction.

(** ** Sample rate of the binaural decoder *)

Section SampleRate.

Import DecoderBinaural.

Lemma supported_sample_rates_spec (sampleRate : R) :
  sampleRate ∈ supported_sample_rates
  <-> (sampleRate = 44100 \/ sampleRate = 48000
       \/ sampleRate = 88200 \/ sampleRate = 96000)%R.
Proof.
  unfold supported_sample_rates.
  rewrite !elem_of_cons, elem_of_nil. tauto.
Qed.

(** C6. [setSampleRate] succeeds exactly for the rates 44100, 48000, 88200
    and 96000, and then holds the rate and the filters of the table; for
    any other rate, 12345 among them, it fails with a configuration error
    and the decoder, its filters included, is as it was. *)
Theorem sample_rate_supported_exactly
    (hrtf : Z -> PinnaSize -> R -> Z -> BinauralFilter * BinauralFilter)
    (d : t) (sampleRate : R) :
  (fst (setSampleRate hrtf d sampleRate) = Ok tt
   <-> (sampleRate = 44100 \/ sampleRate = 48000
        \/ sampleRate = 88200 \/ sampleRate = 96000)%R)
  /\ (fst (setSampleRate hrtf d sampleRate) = Ok tt ->
        m_sampleRate (snd (setSampleRate hrtf d sampleRate)) = sampleRate
        /\ m_filters_left (snd (setSampleRate hrtf d sampleRate))
           = fst <$> load_filters hrtf d sampleRate
        /\ m_filters_right (snd (setSampleRate hrtf d sampleRate))
           = snd <$> load_filters hrtf d sampleRate)
  /\ (fst (setSampleRate hrtf d sampleRate) <> Ok tt ->
        setSampleRate hrtf d sampleRate = (Err ConfigurationError, d))
  /\ setSampleRate hrtf d 12345 = (Err ConfigurationError, d).
Proof.
  unfold setSampleRate.
  split; [|split; [|split]].
  - rewrite <- supported_sample_rates_spec.
    destruct (decide (sampleRate ∈ supported_sample_rates)); simpl;
      split; intros; try assumption; try reflexivity; try discriminate;
      contradiction.
  - destruct (decide (sampleRate ∈ supported_sample_rates)); simpl;
      [intros _; repeat split|discriminate].
  - destruct (decide (sampleRate ∈ supported_sample_rates)); simpl;
      [intros H; exfalso; apply H; reflexivity|reflexivity].
  - destruct (decide (12345%R ∈ supported_sample_rates)) as [Hin|]; [|reflexivity].
    apply supported_sample_rates_spec in Hin. exfalso. lra.
Qed.

Lemma sample_rate_supported_exactly_witness :
  fst (setSampleRate Samples.no_filters (Samples.binaural Small) 48000) = Ok tt
  /\ setSampleRate Samples.no_filters (Samples.binaural Small) 12345
     = (Err ConfigurationError, Samples.binaural Small).
Proof.
  split.
  - apply (proj1 (sample_rate_supported_exactly
                    Samples.no_filters (Samples.binaural Small) 48000)).
    right. left. reflexivity.
  - apply (proj2 (proj2 (proj2 (sample_rate_supported_exactly
                    Samples.no_filters (Samples.binaural Small) 48000)))).
Defined.

End SampleRate.

(** ** The multi-decoder *)

Section MultiDecoder.

Import DecoderMulti.

(** C10. [getNumberOfVirutalChannels] of the multi-decoder is 0 whenever
    the mode is not [Irregular], and in mode [Irregular] it is the number
    of virtual channels of the irregular decoder. *)
Theorem virtual_channels_of_multi (m : t) :
  (m_mode m <> Irregular -> getNumberOfVirutalChannels m = 0)
  /\ (m_mode m = Irregular ->
        getNumberOfVirutalChannels m
        = DecoderIrregular.getNumberOfVirutalChannels (m_decoder_irregular m)).
Proof.
  unfold getNumberOfVirutalChannels.
  destruct (m_mode m); split; intros H;
    try reflexivity; try discriminate; contradiction.
Qed.

Lemma virtual_channels_of_multi_witness :
  getNumberOfVirutalChannels (Samples.multi Binaural DecoderBinaural.Small) = 0
  /\ getNumberOfVirutalChannels (Samples.multi Irregular DecoderBinaural.Small) = 3.
Proof.
  split.
  - apply (proj1 (virtual_channels_of_multi
                    (Samples.multi Binaural DecoderBinaural.Small))).
    discriminate.
  - apply (proj2 (virtual_channels_of_multi
                    (Samples.multi Irregular DecoderBinaural.Small))).
    reflexivity.
Defined.

(** C7, as it is stated, fails in two places.  In the state the constructor
    leaves, the mode is [Regular], the regular decoder has no pinna size, and
    [getPinnaSize] answers from the binaural decoder.  In mode [Binaural] the
    binaural decoder has no offset, and [getChannelsOffset] answers 0. *)
Lemma accessors_not_all_forwarded :
  ~ forwards_every_accessor (Samples.multi Regular DecoderBinaural.Small)
  /\ ~ forwards_every_accessor (Samples.multi Binaural DecoderBinaural.Small).
Proof.
  unfold forwards_every_accessor. split.
  - intros (_ & _ & _ & Hpinna & _). discriminate Hpinna.
  - intros (_ & _ & Hoffset & _). discriminate Hoffset.
Qed.

(** The active decoder does not decide the pinna size: two multi-decoders
    in mode [Regular] with the same regular decoder report different ones. *)
Lemma pinna_size_depends_on_inactive_decoder :
  active (Samples.multi Regular DecoderBinaural.Small)
  = active (Samples.multi Regular DecoderBinaural.Large)
  /\ getPinnaSize (Samples.multi Regular DecoderBinaural.Small)
     <> getPinnaSize (Samples.multi Regular DecoderBinaural.Large).
Proof. split; [reflexivity|discriminate]. Qed.

(** In mode [Binaural] the offset is the constant 0, and not the offset of
    the regular decoder inside the binaural one (π/4 in the sample). *)
Lemma offset_in_binaural_mode :
  getChannelsOffset (Samples.multi Binaural DecoderBinaural.Small) = 0%R
  /\ DecoderRegular.getChannelsOffset
       (DecoderBinaural.m_decoder (m_decoder_binaural
          (Samples.multi Binaural DecoderBinaural.Small))) = (PI / 4)%R.
Proof. split; reflexivity. Qed.

(** In mode [Binaural] there are the two headphone channels of the sample,
    named by the binaural decoder. *)
Example binaural_channel_names :
  getNumberOfChannels (Samples.multi Binaural DecoderBinaural.Small) = 2
  /\ getChannelName (Samples.multi Binaural DecoderBinaural.Small) 0
     = Ok "Headphone Left"%string
  /\ getChannelName (Samples.multi Binaural DecoderBinaural.Small) 1
     = Ok "Headphone Right"%string
  /\ getChannelName (Samples.multi Binaural DecoderBinaural.Small) 2
     = Err RangeError.
Proof. repeat split. Qed.

(** C7, amended. In every mode the channel count, the channel azimuth and
    the channel name are those of the active decoder.  The channels offset
    is that of the active decoder in the modes [Regular] and [Irregular]
    and 0 in mode [Binaural].  The pinna size is that of the binaural
    decoder in every mode, the active decoder's in mode [Binaural]. *)
Theorem accessors_of_multi (m : t) :
  getNumberOfChannels m = decoder_getNumberOfChannels (active m)
  /\ (forall index,
        getChannelAzimuth m index = decoder_getChannelAzimuth (active m) index)
  /\ (forall index,
        getChannelName m index = decoder_getChannelName (active m) index)
  /\ (m_mode m <> Binaural ->
        Some (getChannelsOffset m) = decoder_getChannelsOffset (active m))
  /\ (m_mode m = Binaural -> getChannelsOffset m = 0%R)
  /\ getPinnaSize m = DecoderBinaural.getPinnaSize (m_decoder_binaural m)
  /\ (m_mode m = Binaural ->
        Some (getPinnaSize m) = decoder_getPinnaSize (active m)).
Proof.
  unfold getNumberOfChannels, getChannelAzimuth, getChannelName,
    getChannelsOffset, getPinnaSize, active.
  destruct (m_mode m); cbn [decoder_getNumberOfChannels decoder_getChannelAzimuth
    decoder_getChannelName decoder_getChannelsOffset decoder_getPinnaSize];
    repeat split; try reflexivity; try discriminate; intros H; contradiction.
Qed.

Lemma accessors_of_multi_witness :
  Some (getChannelsOffset (Samples.multi Regular DecoderBinaural.Small))
  = decoder_getChannelsOffset (active (Samples.multi Regular DecoderBinaural.Small))
  /\ getChannelsOffset (Samples.multi Binaural DecoderBinaural.Small) = 0%R
  /\ Some (getPinnaSize (Samples.multi Binaural DecoderBinaural.Large))
     = decoder_getPinnaSize (active (Samples.multi Binaural DecoderBinaural.Large)).
Proof.
  split; [|split].
  - apply (proj1 (proj2 (proj2 (proj2 (accessors_of_multi
             (Samples.multi Regular DecoderBinaural.Small)))))).
    discriminate.
  - apply (proj1 (proj2 (proj2 (proj2 (proj2 (accessors_of_multi
             (Samples.multi Binaural DecoderBinaural.Small))))))).
    reflexivity.
  - apply (proj2 (proj2 (proj2 (proj2 (proj2 (proj2 (accessors_of_multi
             (Samples.multi Binaural DecoderBinaural.Large)))))))).
    reflexivity.
Defined.

End MultiDecoder.


(** ** More on the harmonic accessors *)

Section HarmonicAccessors.

Import Ambisonic.

Lemma to_uint_abs_int (h : Z) :
  INT_MIN <= h <= INT_MAX -> to_uint (abs_int h) = Z.abs h.
Proof.
  unfold INT_MIN, INT_MAX, to_uint, abs_int, to_int. intros Hh.
  Z.div_mod_to_equations. lia.
Qed.

Lemma getHarmonicIndex_int (a : t) (h : Z) :
  INT_MIN <= h <= INT_MAX -> Z.abs h <= m_order a ->
  getHarmonicIndex a h = Ok (if h <? 0 then - h * 2 - 1 else h * 2).
Proof.
  intros Hh Habs.
  unfold getHarmonicIndex, getDecompositionOrder.
  rewrite to_uint_abs_int by assumption. assert_holds.
  unfold INT_MIN, INT_MAX in Hh.
  destruct (Z.ltb_spec h 0); f_equal;
    unfold to_uint, to_int; Z.div_mod_to_equations; lia.
Qed.

Lemma getHarmonicIndex_ok_within (a : t) (h i : Z) :
  INT_MIN <= h <= INT_MAX -> getHarmonicIndex a h = Ok i ->
  Z.abs h <= m_order a.
Proof.
  intros Hh. unfold getHarmonicIndex, getDecompositionOrder.
  rewrite to_uint_abs_int by assumption.
  destruct (Z.leb_spec (Z.abs h) (m_order a)); [trivial|discriminate].
Qed.

(** X1. [getHarmonicIndex] fails, with a range error, exactly on the [int]
    values whose magnitude is above the decomposition order; at [INT_MIN],
    where [abs] overflows, the comparison at [unsigned int] still sees the
    magnitude 2^31. *)
Theorem getHarmonicIndex_fails_above_order (a : t) (h : Z) :
  INT_MIN <= h <= INT_MAX ->
  (getHarmonicIndex a h = Err RangeError <-> m_order a < Z.abs h)
  /\ ((exists i, getHarmonicIndex a h = Ok i) <-> Z.abs h <= m_order a).
Proof.
  intros Hh. unfold getHarmonicIndex, getDecompositionOrder.
  rewrite to_uint_abs_int by assumption.
  destruct (Z.leb_spec (Z.abs h) (m_order a)) as [Hle|Hgt].
  - destruct (h <? 0); split; split; intros H;
      try discriminate; try lia; try (eexists; reflexivity).
  - split; split; intros H; try reflexivity; try lia.
    destruct H as [i H]; discriminate.
Qed.

Lemma getHarmonicIndex_fails_above_order_witness :
  INT_MIN <= INT_MIN <= INT_MAX
  /\ getHarmonicIndex (Build 3 7 [0; -1; 1; -2; 2; -3; 3]) INT_MIN = Err RangeError
  /\ exists i, getHarmonicIndex (Build 3 7 [0; -1; 1; -2; 2; -3; 3]) (-3) = Ok i.
Proof.
  assert (Hmin : INT_MIN <= INT_MIN <= INT_MAX) by (unfold INT_MIN, INT_MAX; lia).
  assert (Hm3 : INT_MIN <= -3 <= INT_MAX) by (unfold INT_MIN, INT_MAX; lia).
  split; [exact Hmin|]. split.
  - apply (proj1 (getHarmonicIndex_fails_above_order
                    (Build 3 7 [0; -1; 1; -2; 2; -3; 3]) INT_MIN Hmin)).
    reflexivity.
  - apply (proj2 (getHarmonicIndex_fails_above_order
                    (Build 3 7 [0; -1; 1; -2; 2; -3; 3]) (-3) Hm3)).
    discriminate.
Defined.

(** X2. On every [int] within the order the wrap-around of the [int]
    operations never shows: [getHarmonicIndex] returns 2h for h >= 0 and
    -2h - 1 for h < 0, an [unsigned int] of at most twice the order, even
    exactly for the non-negative h. *)
Theorem getHarmonicIndex_value (a : t) (h : Z) :
  INT_MIN <= h <= INT_MAX -> Z.abs h <= m_order a ->
  exists i, getHarmonicIndex a h = Ok i
    /\ i = (if h <? 0 then - 2 * h - 1 else 2 * h)
    /\ 0 <= i <= 2 * m_order a
    /\ i <= UINT_MAX
    /\ Z.even i = negb (h <? 0).
Proof.
  intros Hh Habs. rewrite getHarmonicIndex_int by assumption.
  eexists. split; [reflexivity|].
  unfold INT_MIN, INT_MAX in Hh. unfold UINT_MAX.
  destruct (Z.ltb_spec h 0); cbn [negb].
  - repeat split; try lia.
    replace (- h * 2 - 1) with (1 + 2 * (- h - 1)) by lia.
    rewrite Z.even_add_mul_2. reflexivity.
  - repeat split; try lia.
    rewrite Z.mul_comm, Z.even_mul. reflexivity.
Qed.

Lemma getHarmonicIndex_value_witness :
  INT_MIN <= -2 <= INT_MAX /\ Z.abs (-2) <= m_order (Build 2 5 [0; -1; 1; -2; 2])
  /\ exists i, getHarmonicIndex (Build 2 5 [0; -1; 1; -2; 2]) (-2) = Ok i
    /\ i = 3
    /\ 0 <= i <= 2 * 2
    /\ i <= UINT_MAX
    /\ Z.even i = false.
Proof.
  assert (Hh : INT_MIN <= -2 <= INT_MAX) by (unfold INT_MIN, INT_MAX; lia).
  assert (Habs : Z.abs (-2) <= m_order (Build 2 5 [0; -1; 1; -2; 2]))
    by (cbn [m_order]; lia).
  split; [exact Hh|]. split; [exact Habs|].
  exact (getHarmonicIndex_value (Build 2 5 [0; -1; 1; -2; 2]) (-2) Hh Habs).
Defined.

(** X3. [getHarmonicIndex] never gives two [int] orders the same index. *)
Theorem getHarmonicIndex_injective (a : t) (h1 h2 i : Z) :
  INT_MIN <= h1 <= INT_MAX -> INT_MIN <= h2 <= INT_MAX ->
  getHarmonicIndex a h1 = Ok i -> getHarmonicIndex a h2 = Ok i ->
  h1 = h2.
Proof.
  intros Hh1 Hh2 H1 H2.
  assert (Ha1 : Z.abs h1 <= m_order a)
    by exact (getHarmonicIndex_ok_within a h1 i Hh1 H1).
  assert (Ha2 : Z.abs h2 <= m_order a)
    by exact (getHarmonicIndex_ok_within a h2 i Hh2 H2).
  rewrite getHarmonicIndex_int in H1, H2 by assumption.
  injection H1 as H1. injection H2 as H2.
  destruct (Z.ltb_spec h1 0); destruct (Z.ltb_spec h2 0); lia.
Qed.

Lemma getHarmonicIndex_injective_witness :
  INT_MIN <= 1 <= INT_MAX
  /\ getHarmonicIndex (Build 1 3 [0; -1; 1]) 1 = Ok 2
  /\ 1 = 1.
Proof.
  assert (Hh : INT_MIN <= 1 <= INT_MAX) by (unfold INT_MIN, INT_MAX; lia).
  split; [exact Hh|]. split; [reflexivity|].
  exact (getHarmonicIndex_injective (Build 1 3 [0; -1; 1]) 1 1 2 Hh Hh
           eq_refl eq_refl).
Defined.

(** X4. On the arrangement h[0] h[-1] h[1] h[-2] h[2] ... of order N, every
    order d within -N..N comes back from its index: [getHarmonicOrder] of
    [getHarmonicIndex d] is d. *)
Theorem harmonic_order_of_index (N d : Z) :
  1 <= N -> INT_MIN <= d <= INT_MAX -> - N <= d <= N ->
  exists a i, new N = Ok a
    /\ getHarmonicIndex a d = Ok i
    /\ getHarmonicOrder a i = Ok d.
Proof.
  intros HN Hd Hrange.
  eexists. exists (if d <? 0 then - d * 2 - 1 else d * 2).
  split; [apply new_ok; assumption|]. split.
  - apply getHarmonicIndex_int; cbn [m_order]; [assumption|lia].
  - unfold getHarmonicOrder; cbn [m_number_of_harmonics m_harmonics_orders].
    destruct (Z.ltb_spec d 0).
    + assert_holds.
      replace (- d * 2 - 1) with (2 * (- d) - 1) by lia.
      rewrite lookup_harmonics_orders_neg by lia. f_equal; lia.
    + assert_holds. destruct (Z.eq_dec d 0) as [->|Hnz]; [reflexivity|].
      rewrite (Z.mul_comm d 2). apply lookup_harmonics_orders_pos. lia.
Qed.

Lemma harmonic_order_of_index_witness :
  1 <= 2 /\ INT_MIN <= -2 <= INT_MAX /\ - 2 <= -2 <= 2
  /\ exists a i, new 2 = Ok a
    /\ getHarmonicIndex a (-2) = Ok i
    /\ getHarmonicOrder a i = Ok (-2).
Proof.
  assert (Hd : INT_MIN <= -2 <= INT_MAX) by (unfold INT_MIN, INT_MAX; lia).
  assert (HN : 1 <= 2) by lia.
  assert (Hr : - 2 <= -2 <= 2) by lia.
  split; [exact HN|]. split; [exact Hd|]. split; [exact Hr|].
  exact (harmonic_order_of_index 2 (-2) HN Hd Hr).
Defined.

(** The unsigned accessor on the arrangement of order N. *)
Lemma getHarmonicDegree_new (N i : Z) :
  1 <= N <= UINT_MAX -> 0 <= i <= 2 * N ->
  getHarmonicDegree (Build N (2 * N + 1) (harmonics_orders N)) i
  = Ok ((i + 1) / 2).
Proof.
  intros HN Hi.
  unfold getHarmonicDegree; cbn [m_number_of_harmonics m_harmonics_orders].
  assert_holds. rewrite table_lookup by assumption.
  pose proof (canonical_degree_bound N i Hi) as Hb.
  change (Ok (abs_long (canonical_degree i)) = Ok ((i + 1) / 2)).
  rewrite abs_long_small by lia. f_equal.
  unfold canonical_degree.
  destruct (Z.even i) eqn:Heven.
  - apply Z.even_spec in Heven as [k ->]. Z.div_mod_to_equations. lia.
  - Z.div_mod_to_equations. lia.
Qed.

(** X5. On the arrangement of order N, [getHarmonicDegree] at index i is
    (i + 1) / 2: the value k belongs to the two indices 2k - 1 and 2k and to
    no other ("each order contains 2 harmonics", and index 0 alone has 0). *)
Theorem harmonic_degree_pairs (N i : Z) :
  1 <= N <= UINT_MAX -> 0 <= i <= 2 * N ->
  exists a, new N = Ok a
    /\ getHarmonicDegree a i = Ok ((i + 1) / 2)
    /\ (forall k, getHarmonicDegree a i = Ok k <-> i = 2 * k \/ i = 2 * k - 1).
Proof.
  intros HN Hi. eexists. split; [apply new_ok; lia|].
  rewrite getHarmonicDegree_new by assumption.
  split; [reflexivity|].
  intros k. split.
  - intros [= <-]. Z.div_mod_to_equations. lia.
  - intros H. f_equal. Z.div_mod_to_equations. lia.
Qed.

Lemma harmonic_degree_pairs_witness :
  1 <= 2 <= UINT_MAX /\ 0 <= 3 <= 2 * 2
  /\ exists a, new 2 = Ok a
    /\ getHarmonicDegree a 3 = Ok 2
    /\ (forall k, getHarmonicDegree a 3 = Ok k <-> 3 = 2 * k \/ 3 = 2 * k - 1).
Proof.
  assert (HN : 1 <= 2 <= UINT_MAX) by (unfold UINT_MAX; lia).
  assert (Hi : 0 <= 3 <= 2 * 2) by lia.
  split; [exact HN|]. split; [exact Hi|].
  exact (harmonic_degree_pairs 2 3 HN Hi).
Defined.

(** X6. On the arrangement of order N (N an [int]), [getHarmonicIndex] of
    the value of [getHarmonicDegree] at index i is i rounded up to an even
    number: it is i at the even indices and i + 1 at the odd ones. *)
Theorem harmonic_index_of_degree (N i : Z) :
  1 <= N <= INT_MAX -> 0 <= i <= 2 * N ->
  exists a k, new N = Ok a
    /\ getHarmonicDegree a i = Ok k
    /\ getHarmonicIndex a (to_int k) = Ok (i + i mod 2)
    /\ (i + i mod 2 = i <-> Z.even i = true).
Proof.
  unfold INT_MAX. intros HN Hi.
  eexists. exists ((i + 1) / 2).
  split; [apply new_ok; lia|].
  split; [apply getHarmonicDegree_new; unfold UINT_MAX; lia|].
  assert (Hk : 0 <= (i + 1) / 2 <= N) by (Z.div_mod_to_equations; lia).
  split.
  - rewrite to_int_small by (unfold INT_MIN, INT_MAX; lia).
    rewrite getHarmonicIndex_int;
      [|unfold INT_MIN, INT_MAX; lia|cbn [m_order]; lia].
    destruct (Z.ltb_spec ((i + 1) / 2) 0); [lia|].
    f_equal. Z.div_mod_to_equations. lia.
  - rewrite Zeven_mod. split; intros H.
    + apply Z.eqb_eq. lia.
    + apply Z.eqb_eq in H. lia.
Qed.

Lemma harmonic_index_of_degree_witness :
  1 <= 1 <= INT_MAX /\ 0 <= 1 <= 2 * 1
  /\ exists a k, new 1 = Ok a
    /\ getHarmonicDegree a 1 = Ok k
    /\ getHarmonicIndex a (to_int k) = Ok 2
    /\ (1 + 1 mod 2 = 1 <-> Z.even 1 = true).
Proof.
  assert (HN : 1 <= 1 <= INT_MAX) by (unfold INT_MAX; lia).
  assert (Hi : 0 <= 1 <= 2 * 1) by lia.
  split; [exact HN|]. split; [exact Hi|].
  exact (harmonic_index_of_degree 1 1 HN Hi).
Defined.

Lemma to_int_abs_le (d b : Z) :
  0 <= b <= UINT_MAX -> - b <= d <= b ->
  INT_MIN <= to_int d <= INT_MAX /\ Z.abs (to_int d) <= b.
Proof.
  unfold UINT_MAX, INT_MIN, INT_MAX, to_int. intros Hb Hd.
  Z.div_mod_to_equations. lia.
Qed.

Lemma table_entry_wf (a : t) (i : Z) :
  wf a -> 0 <= i < m_number_of_harmonics a ->
  exists d, array_get (m_harmonics_orders a) i = Ok d
    /\ - m_order a <= d <= m_order a.
Proof.
  intros (_ & Hlen & Hall) Hi. unfold array_get.
  destruct (lookup_lt_is_Some_2 (m_harmonics_orders a) (Z.to_nat i) ltac:(lia))
    as [d Hd].
  rewrite Hd. exists d. split; [reflexivity|].
  rewrite Forall_lookup in Hall. exact (Hall _ _ Hd).
Qed.

(** X7. On an Ambisonic object (one table entry per harmonic, each within
    -order..order): below the number of harmonics [getHarmonicOrder] returns
    a value within -order..order, [getHarmonicDegree] one within 0..order,
    and [getHarmonicIndex] accepts the order returned; from the number of
    harmonics on, the order, the degree and the name all fail with a range
    error. *)
Theorem harmonic_accessors_bounds (a : t) (i : Z) :
  wf a -> 0 <= i ->
  (i < getNumberOfHarmonics a ->
     exists d k j, getHarmonicOrder a i = Ok d /\ - m_order a <= d <= m_order a
       /\ getHarmonicDegree a i = Ok k /\ 0 <= k <= m_order a
       /\ getHarmonicIndex a (to_int d) = Ok j)
  /\ (getNumberOfHarmonics a <= i ->
        getHarmonicOrder a i = Err RangeError
        /\ getHarmonicDegree a i = Err RangeError
        /\ getHarmonicName a i = Err RangeError).
Proof.
  unfold getNumberOfHarmonics. intros Hwf Hi. split.
  - intros Hlt.
    destruct (table_entry_wf a i Hwf (conj Hi Hlt)) as (d & Hd & Hb).
    destruct (to_int_abs_le d (m_order a) (proj1 Hwf) Hb) as [Hint Habs].
    exists d, (Z.abs d). eexists.
    unfold getHarmonicOrder, getHarmonicDegree. assert_holds. rewrite Hd.
    split; [reflexivity|]. split; [exact Hb|]. split.
    + change (Ok (abs_long d) = Ok (Z.abs d)).
      destruct Hwf as (Hord & _). rewrite abs_long_small by lia. reflexivity.
    + split; [lia|]. apply getHarmonicIndex_int; assumption.
  - intros Hge.
    unfold getHarmonicOrder, getHarmonicDegree, getHarmonicName.
    destruct (Z.ltb_spec i (m_number_of_harmonics a)); [lia|].
    repeat split.
Qed.

Lemma harmonic_accessors_bounds_witness :
  wf (Build 1 3 [0; -1; 1]) /\ 0 <= 2
  /\ (exists d k j, getHarmonicOrder (Build 1 3 [0; -1; 1]) 2 = Ok d
        /\ - 1 <= d <= 1
        /\ getHarmonicDegree (Build 1 3 [0; -1; 1]) 2 = Ok k /\ 0 <= k <= 1
        /\ getHarmonicIndex (Build 1 3 [0; -1; 1]) (to_int d) = Ok j)
  /\ getHarmonicName (Build 1 3 [0; -1; 1]) 3 = Err RangeError.
Proof.
  assert (Hwf : wf (Build 1 3 [0; -1; 1])).
  { unfold wf, UINT_MAX; simpl. repeat split; try lia.
    repeat constructor; lia. }
  split; [exact Hwf|]. split; [lia|]. split.
  - apply (proj1 (harmonic_accessors_bounds (Build 1 3 [0; -1; 1]) 2 Hwf
                    ltac:(lia))).
    unfold getNumberOfHarmonics; cbn [m_number_of_harmonics]. lia.
  - apply (proj2 (harmonic_accessors_bounds (Build 1 3 [0; -1; 1]) 3 Hwf
                    ltac:(lia))).
    unfold getNumberOfHarmonics; cbn [m_number_of_harmonics]. lia.
Defined.

Lemma to_int_nonnil (z : Z) :
  Z.to_int z <> Decimal.Pos Decimal.Nil /\ Z.to_int z <> Decimal.Neg Decimal.Nil.
Proof.
  destruct z as [|p|p]; simpl; split; try discriminate;
    intros [= Hnil]; exact (DecimalPos.Unsigned.to_uint_nonnil p Hnil).
Qed.

(** Different integers have different numerals. *)
Lemma int_to_string_inj (z1 z2 : Z) :
  int_to_string z1 = int_to_string z2 -> z1 = z2.
Proof.
  unfold int_to_string. intros H.
  apply (f_equal NilZero.int_of_string) in H.
  destruct (to_int_nonnil z1), (to_int_nonnil z2).
  rewrite !NilZero.isi in H by assumption.
  injection H as Heq.
  apply (f_equal Z.of_int) in Heq. rewrite !DecimalZ.of_to in Heq. exact Heq.
Qed.

Lemma canonical_degree_inj (i j : Z) :
  0 <= i -> 0 <= j -> canonical_degree i = canonical_degree j -> i = j.
Proof.
  intros Hi Hj H.
  rewrite <- (canonical_degree_index i Hi), <- (canonical_degree_index j Hj), H.
  reflexivity.
Qed.

(** X8. On the arrangement of order N the name of the harmonic at index i
    is "Harmonic " followed by the numeral of its order, and no two indices
    share a name. *)
Theorem harmonic_names_distinct (N i j : Z) :
  1 <= N -> 0 <= i <= 2 * N -> 0 <= j <= 2 * N ->
  exists a d, new N = Ok a
    /\ getHarmonicOrder a i = Ok d
    /\ getHarmonicName a i = Ok (String.append "Harmonic " (int_to_string d))
    /\ (getHarmonicName a i = getHarmonicName a j -> i = j).
Proof.
  intros HN Hi Hj. eexists. exists (canonical_degree i).
  split; [apply new_ok; assumption|].
  unfold getHarmonicName, getHarmonicOrder;
    cbn [m_number_of_harmonics m_harmonics_orders].
  do 2 assert_holds.
  rewrite !table_lookup by assumption.
  split; [reflexivity|]. split; [reflexivity|].
  intros Hname. cbn in Hname. injection Hname as Hnum.
  apply int_to_string_inj in Hnum.
  apply canonical_degree_inj; lia.
Qed.

Lemma harmonic_names_distinct_witness :
  1 <= 1 /\ 0 <= 1 <= 2 * 1 /\ 0 <= 2 <= 2 * 1
  /\ exists a d, new 1 = Ok a
    /\ getHarmonicOrder a 1 = Ok d
    /\ getHarmonicName a 1 = Ok (String.append "Harmonic " (int_to_string d))
    /\ (getHarmonicName a 1 = getHarmonicName a 2 -> 1 = 2).
Proof.
  assert (HN : 1 <= 1) by lia.
  assert (Hi : 0 <= 1 <= 2 * 1) by lia.
  assert (Hj : 0 <= 2 <= 2 * 1) by lia.
  split; [exact HN|]. split; [exact Hi|]. split; [exact Hj|].
  exact (harmonic_names_distinct 1 1 2 HN Hi Hj).
Defined.

(** The names of order 1. *)
Example harmonic_names_1 :
  getHarmonicName (Build 1 3 [0; -1; 1]) 0 = Ok "Harmonic 0"%string
  /\ getHarmonicName (Build 1 3 [0; -1; 1]) 1 = Ok "Harmonic -1"%string
  /\ getHarmonicName (Build 1 3 [0; -1; 1]) 2 = Ok "Harmonic 1"%string.
Proof. repeat split. Qed.

End HarmonicAccessors.

(** ** More on the channel accessors *)

Section ChannelAccessors.

Import Planewaves.




(** On a layout with one azimuth per channel the accessors accept the
    indices below the number of channels and no other. *)
Lemma planewaves_index_check (abscissa ordinate : R -> R -> R) (p : t) (index : Z) :
  wf p -> 0 <= index ->
  (index < getNumberOfChannels p ->
     exists azimuth name,
       getChannelAzimuth p index = Ok azimuth
       /\ getChannelName p index = Ok name
       /\ getChannelAbscissa abscissa p index = Ok (abscissa 1%R azimuth)
       /\ getChannelOrdinate ordinate p index = Ok (ordinate 1%R azimuth))
  /\ (getNumberOfChannels p <= index ->
        getChannelAzimuth p index = Err RangeError
        /\ getChannelName p index = Err RangeError
        /\ getChannelAbscissa abscissa p index = Err RangeError
        /\ getChannelOrdinate ordinate p index = Err RangeError).
Proof.
  unfold wf, getNumberOfChannels. intros Hwf Hi. split.
  - intros Hlt.
    destruct (lookup_lt_is_Some_2 (m_channels_azimuth p) (Z.to_nat index)
                ltac:(lia)) as [azimuth Haz].
    exists azimuth. eexists.
    unfold getChannelName, getChannelAbscissa, getChannelOrdinate,
      getChannelAzimuth, array_get.
    assert_holds. rewrite Haz. repeat split.
  - intros Hge.
    unfold getChannelName, getChannelAbscissa, getChannelOrdinate,
      getChannelAzimuth.
    destruct (Z.ltb_spec index (m_number_of_channels p)); [lia|].
    repeat split.
Qed.

End ChannelAccessors.

(** ** More on the multi-decoder *)

Section MultiAccessors.

Import DecoderMulti.

(** X10. In a multi-decoder whose decoders store one azimuth per channel,
    [getChannelAzimuth] accepts exactly the indices below
    [getNumberOfChannels] and fails with a range error on the others, in
    every mode.  [getChannelName] accepts the same indices in the modes
    [Regular] and [Irregular]; in mode [Binaural] it accepts 0 and 1, the
    two headphone channels, whatever the number of channels. *)
Theorem multi_index_checks (m : t) (index : Z) :
  wf m -> 0 <= index ->
  ((exists azimuth, getChannelAzimuth m index = Ok azimuth)
     <-> index < getNumberOfChannels m)
  /\ (getNumberOfChannels m <= index -> getChannelAzimuth m index = Err RangeError)
  /\ (m_mode m <> Binaural ->
        ((exists name, getChannelName m index = Ok name)
           <-> index < getNumberOfChannels m)
        /\ (getNumberOfChannels m <= index ->
              getChannelName m index = Err RangeError))
  /\ (m_mode m = Binaural ->
        ((exists name, getChannelName m index = Ok name) <-> index < 2)
        /\ (2 <= index -> getChannelName m index = Err RangeError)).
Proof.
  intros (Hreg & Hirr & Hbin) Hi.
  unfold getChannelAzimuth, getChannelName, getNumberOfChannels.
  pose (zero := fun _ _ : R => 0%R).
  destruct (m_mode m).
  - destruct (planewaves_index_check zero zero _ index Hreg Hi) as [Hin Hout].
    unfold DecoderRegular.getChannelAzimuth, DecoderRegular.getChannelName,
      DecoderRegular.getNumberOfChannels.
    destruct (Z.lt_ge_cases index
                (Planewaves.getNumberOfChannels
                   (DecoderRegular.planewaves (m_decoder_regular m)))) as [Hlt|Hge].
    + destruct (Hin Hlt) as (az & name & Haz & Hname & _). rewrite Haz, Hname.
      repeat split; try (intros; lia); try (intros; eauto); discriminate.
    + destruct (Hout Hge) as (Haz & Hname & _). rewrite Haz, Hname.
      repeat split; try reflexivity; try (intros; lia); try discriminate;
        intros [x Hx]; discriminate.
  - destruct (planewaves_index_check zero zero _ index Hirr Hi) as [Hin Hout].
    unfold DecoderIrregular.getChannelAzimuth, DecoderIrregular.getChannelName,
      DecoderIrregular.getNumberOfChannels.
    destruct (Z.lt_ge_cases index
                (Planewaves.getNumberOfChannels
                   (DecoderIrregular.planewaves (m_decoder_irregular m)))) as [Hlt|Hge].
    + destruct (Hin Hlt) as (az & name & Haz & Hname & _). rewrite Haz, Hname.
      repeat split; try (intros; lia); try (intros; eauto); discriminate.
    + destruct (Hout Hge) as (Haz & Hname & _). rewrite Haz, Hname.
      repeat split; try reflexivity; try (intros; lia); try discriminate;
        intros [x Hx]; discriminate.
  - destruct (planewaves_index_check zero zero _ index Hbin Hi) as [Hin Hout].
    unfold DecoderBinaural.getChannelAzimuth, DecoderBinaural.getChannelName,
      DecoderBinaural.getNumberOfChannels.
    split; [|split; [|split]].
    + split.
      * intros [az Haz].
        destruct (Z.lt_ge_cases index
                    (Planewaves.getNumberOfChannels
                       (DecoderBinaural.planewaves (m_decoder_binaural m))))
          as [Hlt|Hge]; [exact Hlt|].
        destruct (Hout Hge) as (Herr & _). rewrite Herr in Haz. discriminate.
      * intros Hlt. destruct (Hin Hlt) as (az & _ & Haz & _). eauto.
    + intros Hge. exact (proj1 (Hout Hge)).
    + intros Hmode. contradiction.
    + intros _. split.
      * destruct (Z.ltb_spec index 2) as [Hlt|Hge].
        -- split; [intros; assumption|].
           intros _. destruct (index =? 0); eauto.
        -- split; [intros [x Hx]; discriminate|lia].
      * intros Hge. destruct (Z.ltb_spec index 2); [lia|reflexivity].
Qed.

Lemma multi_index_checks_witness :
  (exists name,
      getChannelName (Samples.multi Binaural DecoderBinaural.Small) 1 = Ok name)
  /\ getChannelAzimuth (Samples.multi Regular DecoderBinaural.Small) 4
     = Err RangeError.
Proof.
  assert (Hwf : forall mode, wf (Samples.multi mode DecoderBinaural.Small))
    by (intros mode; repeat split).
  split.
  - apply (proj1 (proj2 (proj2 (proj2 (multi_index_checks
             (Samples.multi Binaural DecoderBinaural.Small) 1
             (Hwf Binaural) ltac:(lia)))) eq_refl)).
    lia.
  - apply (proj1 (proj2 (multi_index_checks
             (Samples.multi Regular DecoderBinaural.Small) 4
             (Hwf Regular) ltac:(lia)))).
    change (4 <= 4). lia.
Defined.

(** X11. In every mode the abscissa and the ordinate the multi-decoder
    reports for a channel are the projections, at radius 1, of the azimuth
    it reports for that channel; they fail as [getChannelAzimuth] fails. *)
Theorem multi_coordinates_follow_azimuth
    (abscissa ordinate : R -> R -> R) (m : t) (index : Z) :
  getChannelAbscissa abscissa m index
  = (azimuth ← getChannelAzimuth m index; Ok (abscissa 1%R azimuth))
  /\ getChannelOrdinate ordinate m index
     = (azimuth ← getChannelAzimuth m index; Ok (ordinate 1%R azimuth)).
Proof.
  unfold getChannelAbscissa, getChannelOrdinate, getChannelAzimuth.
  destruct (m_mode m);
    unfold DecoderRegular.getChannelAbscissa, DecoderRegular.getChannelOrdinate,
      DecoderRegular.getChannelAzimuth,
      DecoderIrregular.getChannelAbscissa, DecoderIrregular.getChannelOrdinate,
      DecoderIrregular.getChannelAzimuth,
      DecoderBinaural.getChannelAbscissa, DecoderBinaural.getChannelOrdinate,
      DecoderBinaural.getChannelAzimuth,
      Planewaves.getChannelAbscissa, Planewaves.getChannelOrdinate,
      Planewaves.getChannelAzimuth;
    match goal with
    | |- context [if ?c then _ else _] => destruct c
    end; split; reflexivity.
Qed.

End MultiAccessors.
